(** * A CORS relay: origin gate, target resolver, header selector, forwarder

    Shallow embedding of [src/proxy.py].  Python [str] values are modelled as
    [string]; the optional query parameter ([request.args.get("url")], an
    [Optional[str]]) as [option string]; the [dict] built by
    [get_forward_headers] as a [gmap string string]; the case-insensitive
    header collections of the web framework and of the HTTP client as
    association lists with a case-insensitive lookup. *)

From Stdlib Require Import ZArith Ascii String Bool.
From stdpp Require Import base strings gmap list.

Local Open Scope string_scope.
Local Open Scope Z_scope.

(** ** Python string primitives used by the source *)

Module Py.

(** Truth value of a [str]: only the empty string is falsy. *)
Definition truthy (s : string) : bool :=
  match s with
  | EmptyString => false
  | String _ _ => true
  end.

(** Truth value of an [Optional[str]]: [None] and [""] are falsy. *)
Definition truthy_opt (o : option string) : bool :=
  match o with
  | None => false
  | Some s => truthy s
  end.

(** [s.startswith(p)]. *)
Fixpoint startswith (s p : string) {struct p} : bool :=
  match p, s with
  | EmptyString, _ => true
  | String _ _, EmptyString => false
  | String b p', String a s' => Ascii.eqb a b && startswith s' p'
  end.

(** [s[n:]] for a non-negative literal [n]. *)
Fixpoint slice_from (n : nat) (s : string) : string :=
  match n, s with
  | O, _ => s
  | S _, EmptyString => EmptyString
  | S n', String _ s' => slice_from n' s'
  end.

(** ASCII case folding, as used when header names are compared. *)
Definition lower_ascii (c : ascii) : ascii :=
  let n := nat_of_ascii c in
  if (Nat.leb 65 n && Nat.leb n 90)%bool then ascii_of_nat (n + 32) else c.

Fixpoint lower (s : string) : string :=
  match s with
  | EmptyString => EmptyString
  | String c s' => String (lower_ascii c) (lower s')
  end.

(** [x in (a, b, ...)] on strings. *)
Definition str_in (x : string) (l : list string) : bool :=
  existsb (String.eqb x) l.

End Py.

(** Propositional reading of "[s] starts with [p]". *)
Definition starts_with (s p : string) : Prop := exists rest, s = p +:+ rest.

(** ** Origin gate *)

Definition ALLOWED_ORIGINS : list string :=
  [ "https://pltchuong.github.io";
    "http://localhost";
    "http://127.0.0.1" ].

(** The test in the body of the [for] loop of [is_origin_allowed]. *)
Definition origin_matches (origin allowed : string) : bool :=
  String.eqb origin allowed
  || Py.startswith origin (allowed +:+ "/")
  || Py.startswith origin (allowed +:+ ":").

Definition is_origin_allowed (origin : string) : bool :=
  if negb (Py.truthy origin) then false
  else existsb (origin_matches origin) ALLOWED_ORIGINS.

(** ** Target resolver *)

Definition get_target_url (path : string) (query_url : option string)
  : option string :=
  if Py.truthy_opt query_url then query_url
  else if Py.startswith path "/proxy/" then Some (Py.slice_from 7 path)
  else None.

(** ** Header collections *)

Abbreviation header_list := (list (string * string)).

(** [hs.get(name)]: the value of the first header whose name matches
    [name] up to case. *)
Fixpoint header_get (hs : header_list) (name : string) : option string :=
  match hs with
  | [] => None
  | (k, v) :: hs' =>
      if String.eqb (Py.lower k) (Py.lower name) then Some v
      else header_get hs' name
  end.

(** [hs.get(name, dflt)]. *)
Definition header_get_default (hs : header_list) (name dflt : string) : string :=
  match header_get hs name with
  | Some v => v
  | None => dflt
  end.

(** [hs[name] = value] on a response: the first header with that name (up to
    case) is replaced and later ones are removed; otherwise the header is
    appended. *)
Fixpoint header_set (hs : header_list) (name value : string) : header_list :=
  match hs with
  | [] => [(name, value)]
  | (k, v) :: hs' =>
      if String.eqb (Py.lower k) (Py.lower name)
      then (name, value)
             :: filter (fun kv => String.eqb (Py.lower kv.1) (Py.lower name) = false) hs'
      else (k, v) :: header_set hs' name value
  end.

(** ** Requests and responses *)

(** The parts of the framework's [request] object that the source reads:
    [request.method], [request.path], [request.args.get("url")],
    [request.headers] and [request.get_data()]. *)
Record request := Request {
  req_method : string;
  req_path : string;
  req_args_url : option string;
  req_headers : header_list;
  req_data : string
}.

(** A response body: raw bytes, or the object handed to [jsonify] (all of
    whose values are strings here), in the order the source lists its keys. *)
Inductive payload :=
| Bytes (b : string)
| Json (fields : list (string * string)).

(** [rsp_content_type] is [None] when the source passes no content type and
    leaves it to the framework; [rsp_headers] holds the headers the
    application sets on the response after its construction. *)
Record response := Response {
  rsp_body : payload;
  rsp_status : Z;
  rsp_content_type : option string;
  rsp_headers : header_list
}.

(** [Response(status=code)]. *)
Definition empty_response (code : Z) : response :=
  Response (Bytes "") code None [].

(** [Response(body, status=code, content_type=ct)]. *)
Definition bytes_response (body : string) (code : Z) (ct : string) : response :=
  Response (Bytes body) code (Some ct) [].

(** [jsonify(obj), code]. *)
Definition jsonify (obj : list (string * string)) (code : Z) : response :=
  Response (Json obj) code (Some "application/json") [].

(** ** Header selector *)

Definition FORWARDED_HEADERS : list string :=
  [ "Content-Type"; "Accept"; "Authorization"; "User-Agent"; "X-Requested-With" ].

Definition DEFAULT_USER_AGENT : string := "CORS-Proxy/1.0".

(** One iteration of the [for header in ...] loop. *)
Definition copy_header (incoming : header_list)
    (headers : gmap string string) (header : string) : gmap string string :=
  match header_get incoming header with
  | Some value => if Py.truthy value then <[header := value]> headers else headers
  | None => headers
  end.

(** What one loop iteration copies for a name: the incoming value, unless it
    is missing or empty. *)
Definition selected (incoming : header_list) (name : string) : option string :=
  match header_get incoming name with
  | Some value => if Py.truthy value then Some value else None
  | None => None
  end.

(** The loop of [get_forward_headers] over an arbitrary list of names. *)
Definition copy_headers (incoming : header_list) (names : list string)
  : gmap string string :=
  foldl (copy_header incoming) ∅ names.

Definition get_forward_headers (req : request) : gmap string string :=
  let headers := copy_headers (req_headers req) FORWARDED_HEADERS in
  match headers !! "User-Agent" with
  | None => <["User-Agent" := DEFAULT_USER_AGENT]> headers
  | Some _ => headers
  end.

(** ** CORS header injection *)

Definition origin_of (req : request) : string :=
  header_get_default (req_headers req) "Origin" "".

Definition ALLOW_METHODS : string := "GET, POST, PUT, DELETE, OPTIONS, PATCH".
Definition ALLOW_HEADERS : string :=
  "Content-Type, Authorization, X-Requested-With, Accept, Origin".
Definition MAX_AGE : string := "86400".

Definition with_header (r : response) (name value : string) : response :=
  Response (rsp_body r) (rsp_status r) (rsp_content_type r)
           (header_set (rsp_headers r) name value).

Definition after_request (req : request) (r : response) : response :=
  let origin := origin_of req in
  if is_origin_allowed origin then
    let r := with_header r "Access-Control-Allow-Origin" origin in
    let r := with_header r "Access-Control-Allow-Methods" ALLOW_METHODS in
    let r := with_header r "Access-Control-Allow-Headers" ALLOW_HEADERS in
    with_header r "Access-Control-Max-Age" MAX_AGE
  else r.

(** The four headers, as they appear on a response that carried none. *)
Definition cors_headers (origin : string) : header_list :=
  [ ("Access-Control-Allow-Origin", origin);
    ("Access-Control-Allow-Methods", ALLOW_METHODS);
    ("Access-Control-Allow-Headers", ALLOW_HEADERS);
    ("Access-Control-Max-Age", MAX_AGE) ].

(** The names of the four headers. *)
Definition CORS_NAMES : list string :=
  [ "Access-Control-Allow-Origin"; "Access-Control-Allow-Methods";
    "Access-Control-Allow-Headers"; "Access-Control-Max-Age" ].

(** ** Forwarder *)

(** The arguments of [urllib.request.Request(...)] and [urlopen(...)]. *)
Record outbound := Outbound {
  out_url : string;
  out_data : option string;
  out_headers : gmap string string;
  out_method : string;
  out_timeout : Z
}.

(** What the second [try] block observes: the upstream response was read, or
    one of the three exception classes the handlers distinguish was raised
    ([HTTPError] is tested before its superclass [URLError]).  [err_fp] is
    [None] when [e.fp] is falsy and otherwise the bytes [e.read()] returns;
    [reason] and [msg] stand for [str(e.reason)] and [str(e)]. *)
Inductive outcome :=
| Returned (status : Z) (hdrs : header_list) (content : string)
| RaisedHTTPError (code : Z) (hdrs : header_list) (err_fp : option string)
| RaisedURLError (reason : string)
| RaisedException (msg : string).

Definition OCTET_STREAM : string := "application/octet-stream".

(** The [with] body and the three [except] clauses. *)
Definition relay (o : outcome) : response :=
  match o with
  | Returned status hdrs content =>
      bytes_response content status
        (header_get_default hdrs "Content-Type" OCTET_STREAM)
  | RaisedHTTPError code hdrs err_fp =>
      bytes_response (match err_fp with Some b => b | None => "" end) code
        (header_get_default hdrs "Content-Type" OCTET_STREAM)
  | RaisedURLError reason =>
      jsonify [("error", "Failed to connect"); ("message", reason)] 502
  | RaisedException msg =>
      jsonify [("error", "Proxy error"); ("message", msg)] 500
  end.

(** How the HTTP client reports a transport failure.  The client library
    ([urllib.request], which is not part of this repository) opens the
    connection and sends the request inside a handler that wraps every
    [OSError] in a [URLError]; waiting for the response and reading it happen
    outside that handler, so a failure there reaches the [try] block as the
    unwrapped exception. *)
Inductive transport_failure :=
| DnsFailure
| ConnectionRefused
| TlsFailure
| ConnectTimeout
| ReadTimeout
| ConnectionDropped.

(** The failures that happen while connecting or sending the request. *)
Definition while_connecting (f : transport_failure) : bool :=
  match f with
  | DnsFailure | ConnectionRefused | TlsFailure | ConnectTimeout => true
  | ReadTimeout | ConnectionDropped => false
  end.

(** What the [try] block observes for a transport failure whose text is
    [text]: a [URLError] with that reason, or the unwrapped exception. *)
Definition surfaced (f : transport_failure) (text : string) : outcome :=
  if while_connecting f then RaisedURLError text else RaisedException text.

(** The view either answers at once or enters the forwarding [try] block
    with an outbound request. *)
Inductive step :=
| Respond (r : response)
| Urlopen (o : outbound).

Definition FORBIDDEN : response :=
  jsonify [("error", "Forbidden"); ("message", "Origin not allowed")] 403.

Definition MISSING_TARGET : response :=
  jsonify [("error", "Missing target URL");
           ("usage", "/proxy?url=<encoded_url> or /proxy/<url>");
           ("example", "/proxy?url=https://api.example.com/data")] 400.

Definition BAD_SCHEME : response :=
  jsonify [("error", "URL must start with http:// or https://")] 400.

Definition BAD_FORMAT : response :=
  jsonify [("error", "Invalid URL format")] 400.

Section Handler.

(** [urllib.parse.urlparse(u).scheme]; [None] when parsing raises. *)
Variable urlparse_scheme : string -> option string.

(** The network: what entering the forwarding block with a given outbound
    request results in. *)
Variable urlopen : outbound -> outcome.

Definition proxy (req : request) : step :=
  let origin := origin_of req in
  if String.eqb (req_method req) "OPTIONS" then
    if is_origin_allowed origin then Respond (empty_response 200)
    else Respond (empty_response 403)
  else if negb (is_origin_allowed origin) then Respond FORBIDDEN
  else
    let target := get_target_url (req_path req) (req_args_url req) in
    if negb (Py.truthy_opt target) then Respond MISSING_TARGET
    else
      let target_url := default "" target in
      match urlparse_scheme target_url with
      | None => Respond BAD_FORMAT
      | Some scheme =>
          if negb (Py.str_in scheme ["http"; "https"]) then Respond BAD_SCHEME
          else
            let body :=
              if Py.str_in (req_method req) ["POST"; "PUT"; "PATCH"]
              then Some (req_data req) else None in
            Urlopen (Outbound target_url body (get_forward_headers req)
                              (req_method req) 30)
      end.

(** One request through the view and the [after_request] hook, together
    with the outbound requests issued on the way. *)
Definition handle (req : request) : response * list outbound :=
  match proxy req with
  | Respond r => (after_request req r, [])
  | Urlopen o => (after_request req (relay (urlopen o)), [o])
  end.

End Handler.

(** Whether the outcome of the forwarding block is a reply of the target
    (a normal response or an HTTP error response) rather than a failure. *)
Definition upstream_replied (o : outcome) : bool :=
  match o with
  | Returned _ _ _ | RaisedHTTPError _ _ _ => true
  | RaisedURLError _ | RaisedException _ => false
  end.

(** ** Health check *)

(** The view of the route "/": [jsonify(...)] with the default status. *)
Definition index : response :=
  jsonify [("status", "ok"); ("usage", "/proxy?url=<encoded_url>")] 200.

(** A request to "/" through the view and the [after_request] hook. *)
Definition handle_index (req : request) : response := after_request req index.

(** ** Stand-ins for the external world, used to run the handler on examples *)

(** A simple URL parser: the scheme is the lower-cased text before the first
    colon, and is empty when there is no colon.  It never fails. *)
Fixpoint text_before_colon (u : string) : option string :=
  match u with
  | EmptyString => None
  | String c u' =>
      if Ascii.eqb c ":" then Some EmptyString
      else option_map (String c) (text_before_colon u')
  end.

Definition scheme_before_colon (u : string) : option string :=
  Some (Py.lower (default "" (text_before_colon u))).

(** A parser that rejects every input. *)
Definition failing_parser (u : string) : option string := None.

(** A network in which every outbound request has the same outcome. *)
Definition fixed_network (o : outcome) (out : outbound) : outcome := o.

(** ** Proof helpers *)

(** Closes a goal from a hypothesis placing a literal in a literal list that
    does not have it. *)
Ltac not_listed H :=
  apply list_elem_of_In in H; simpl in H; intuition discriminate.

(** Proves that a literal is a member of a literal list. *)
Ltac listed := apply list_elem_of_In; simpl; tauto.

(** * Properties *)

(** ** String primitives *)

Lemma startswith_spec (s p : string) :
  Py.startswith s p = true <-> starts_with s p.
Proof.
  revert s. induction p as [|b p IH]; intros s; simpl.
  - split; [intros _; now exists s | reflexivity].
  - destruct s as [|a s].
    + split; [discriminate | intros [r Hr]; discriminate].
    + rewrite andb_true_iff, Ascii.eqb_eq, IH. split.
      * intros [-> [r ->]]. now exists r.
      * intros [r Hr]. simpl in Hr. injection Hr as -> ->.
        split; [reflexivity | now exists r].
Qed.

Lemma startswith_app (p r : string) : Py.startswith (p +:+ r) p = true.
Proof. apply startswith_spec. now exists r. Qed.

Lemma slice_from_app (p r : string) :
  Py.slice_from (String.length p) (p +:+ r) = r.
Proof. induction p as [|a p IH]; simpl; [now destruct r | exact IH]. Qed.

Lemma truthy_true (s : string) : Py.truthy s = true <-> s <> "".
Proof. destruct s; simpl; split; congruence. Qed.

Lemma truthy_false (s : string) : Py.truthy s = false <-> s = "".
Proof. destruct s; simpl; split; congruence. Qed.

Lemma str_in_spec (x : string) (l : list string) :
  Py.str_in x l = true <-> x ∈ l.
Proof.
  unfold Py.str_in. rewrite existsb_exists, list_elem_of_In. split.
  - intros [y [Hy Heq]]. apply String.eqb_eq in Heq. now subst.
  - intros Hx. exists x. split; [exact Hx | apply String.eqb_refl].
Qed.

(** ** Origin gate *)

Lemma origin_matches_spec (o e : string) :
  origin_matches o e = true <->
  o = e \/ starts_with o (e +:+ "/") \/ starts_with o (e +:+ ":").
Proof.
  unfold origin_matches.
  rewrite !orb_true_iff, String.eqb_eq, !startswith_spec. tauto.
Qed.

Lemma origin_of_missing (req : request) :
  header_get (req_headers req) "Origin" = None -> origin_of req = "".
Proof. unfold origin_of, header_get_default. now intros ->. Qed.

(** C2. An origin is allowed exactly when, for some entry of the allow-list,
    it equals the entry or starts with the entry followed by a slash or by a
    colon; the empty origin is not allowed, and neither is a request that
    carries no Origin header. *)
Theorem is_origin_allowed_iff :
  (forall o : string,
      is_origin_allowed o = true <->
      exists e, e ∈ ALLOWED_ORIGINS /\
                (o = e \/ starts_with o (e +:+ "/") \/ starts_with o (e +:+ ":")))
  /\ is_origin_allowed "" = false
  /\ (forall req : request,
         header_get (req_headers req) "Origin" = None ->
         is_origin_allowed (origin_of req) = false).
Proof.
  split; [| split].
  - intros o. unfold is_origin_allowed. destruct o as [|a o]; simpl negb; cbv iota.
    + split; [discriminate |].
      intros [e [He Hm]]. exfalso.
      unfold ALLOWED_ORIGINS in He.
      repeat (apply elem_of_cons in He; destruct He as [-> | He]);
        try (now apply elem_of_nil in He);
        destruct Hm as [Hm | [[r Hm] | [r Hm]]]; discriminate.
    + rewrite existsb_exists. split.
      * intros [e [He Hm]]. exists e. split.
        -- now apply list_elem_of_In.
        -- now apply origin_matches_spec.
      * intros [e [He Hm]]. exists e. split.
        -- now apply list_elem_of_In.
        -- now apply origin_matches_spec.
  - reflexivity.
  - intros req Hreq. now rewrite (origin_of_missing req Hreq).
Qed.

Lemma is_origin_allowed_iff_witness :
  is_origin_allowed "http://localhost:3000" = true
  /\ is_origin_allowed
       (origin_of (Request "GET" "/proxy" None [("Accept", "text/plain")] "")) = false.
Proof.
  destruct is_origin_allowed_iff as [Hiff [_ Hmissing]].
  split.
  - apply Hiff. exists "http://localhost". split; [listed |].
    right. right. now exists "3000".
  - apply Hmissing. reflexivity.
Defined.

(** ** Target resolver *)

Lemma get_target_url_falsy_query (path : string) (q : option string) :
  Py.truthy_opt q = false ->
  get_target_url path q =
  if Py.startswith path "/proxy/" then Some (Py.slice_from 7 path) else None.
Proof. unfold get_target_url. now intros ->. Qed.

(** C1, as stated, fails: an empty query parameter does not win over the
    path form; it is treated like an absent one. *)
Lemma get_target_url_empty_query_counterexample :
  get_target_url "/proxy/https://x.test/y" (Some "") = Some "https://x.test/y"
  /\ get_target_url "/proxy/https://x.test/y" (Some "") <> Some ""
  /\ get_target_url "/other" (Some "") = None.
Proof. repeat split; [vm_compute; discriminate]. Qed.

(** C1, amended.  A query parameter that is present and non-empty is
    returned whatever the path is; when the query parameter is absent or
    empty, the text after the "/proxy/" prefix of the path is returned; and
    when the query parameter is absent or empty and the path lacks that
    prefix, there is no target. *)
Theorem get_target_url_precedence :
  (forall (path q : string), q <> "" -> get_target_url path (Some q) = Some q)
  /\ (forall (path : string) (q : option string) (rest : string),
         q = None \/ q = Some "" ->
         path = "/proxy/" +:+ rest ->
         get_target_url path q = Some rest)
  /\ (forall (path : string) (q : option string),
         q = None \/ q = Some "" ->
         ~ starts_with path "/proxy/" ->
         get_target_url path q = None).
Proof.
  split; [| split].
  - intros path q Hq. unfold get_target_url. simpl.
    now rewrite (proj2 (truthy_true q) Hq).
  - intros path q rest Hq ->.
    rewrite get_target_url_falsy_query by (destruct Hq as [-> | ->]; reflexivity).
    rewrite startswith_app. change 7%nat with (String.length "/proxy/").
    now rewrite slice_from_app.
  - intros path q Hq Hpath.
    rewrite get_target_url_falsy_query by (destruct Hq as [-> | ->]; reflexivity).
    destruct (Py.startswith path "/proxy/") eqn:E; [| reflexivity].
    exfalso. apply Hpath. now apply startswith_spec.
Qed.

Lemma get_target_url_precedence_witness :
  get_target_url "/proxy/https://a.test/" (Some "https://b.test/") = Some "https://b.test/"
  /\ get_target_url "/proxy/https://x.test/y" None = Some "https://x.test/y"
  /\ get_target_url "/other" None = None.
Proof.
  destruct get_target_url_precedence as [Hquery [Hpath Hnone]].
  split; [| split].
  - apply Hquery. discriminate.
  - apply Hpath; [now left | reflexivity].
  - apply Hnone; [now left |].
    intros Hp. apply startswith_spec in Hp. discriminate Hp.
Defined.

(** ** Header selector *)

Lemma copy_header_selected incoming headers name :
  copy_header incoming headers name =
  match selected incoming name with
  | Some v => <[name := v]> headers
  | None => headers
  end.
Proof.
  unfold copy_header, selected.
  destruct (header_get incoming name) as [v|]; [| reflexivity].
  now destruct (Py.truthy v).
Qed.

Lemma selected_Some incoming name v :
  selected incoming name = Some v <->
  header_get incoming name = Some v /\ v <> "".
Proof.
  unfold selected. destruct (header_get incoming name) as [w|].
  - destruct (Py.truthy w) eqn:E.
    + apply truthy_true in E. split; [intros [= ->] | intros [[= ->] _]]; auto.
    + apply truthy_false in E. subst w.
      split; [discriminate | intros [[= <-] Hv]; now destruct Hv].
  - split; [discriminate | intros [H _]; discriminate].
Qed.

(** The loop, read off name by name. *)
Lemma lookup_copy_loop incoming (names : list string) :
  forall (acc : gmap string string) (k : string),
    foldl (copy_header incoming) acc names !! k =
    if decide (k ∈ names)
    then match selected incoming k with Some v => Some v | None => acc !! k end
    else acc !! k.
Proof.
  induction names as [|n names IH]; intros acc k; cbn [foldl].
  - destruct (decide (k ∈ [])) as [Hin | _]; [now apply elem_of_nil in Hin | reflexivity].
  - rewrite IH, copy_header_selected.
    destruct (decide (k = n)) as [-> | Hne].
    + rewrite (decide_True (P := n ∈ n :: names)) by (apply elem_of_cons; auto).
      destruct (selected incoming n) as [v|].
      * rewrite lookup_insert_eq. now case_decide.
      * now case_decide.
    + assert (Hacc : (match selected incoming n with
                      | Some v => <[n := v]> acc
                      | None => acc
                      end) !! k = acc !! k).
      { destruct (selected incoming n); [now apply lookup_insert_ne | reflexivity]. }
      rewrite Hacc.
      destruct (decide (k ∈ names)) as [Hin | Hin].
      * rewrite decide_True by (apply elem_of_cons; auto). reflexivity.
      * rewrite decide_False; [reflexivity |].
        intros [? | ?]%elem_of_cons; contradiction.
Qed.

Lemma lookup_copy_headers incoming names k :
  copy_headers incoming names !! k =
  if decide (k ∈ names) then selected incoming k else None.
Proof.
  unfold copy_headers. rewrite lookup_copy_loop, lookup_empty.
  case_decide; [now destruct (selected incoming k) | reflexivity].
Qed.

(** The forwarded set, read off name by name. *)
Lemma lookup_forward_headers (req : request) (k : string) :
  get_forward_headers req !! k =
  if decide (k = "User-Agent")
  then Some (default DEFAULT_USER_AGENT (selected (req_headers req) "User-Agent"))
  else if decide (k ∈ FORWARDED_HEADERS) then selected (req_headers req) k
  else None.
Proof.
  unfold get_forward_headers.
  pose proof (lookup_copy_headers (req_headers req) FORWARDED_HEADERS "User-Agent") as Hua.
  rewrite decide_True in Hua by listed.
  rewrite Hua.
  destruct (selected (req_headers req) "User-Agent") as [ua|] eqn:Esel; simpl.
  - case_decide as Hk.
    + subst k. now rewrite Hua.
    + apply lookup_copy_headers.
  - case_decide as Hk.
    + subst k. apply lookup_insert_eq.
    + rewrite lookup_insert_ne by congruence. apply lookup_copy_headers.
Qed.

Lemma default_user_agent_nonempty : DEFAULT_USER_AGENT <> "".
Proof. discriminate. Qed.

Lemma forward_header_nonempty (req : request) (k v : string) :
  get_forward_headers req !! k = Some v -> v <> "".
Proof.
  rewrite lookup_forward_headers. case_decide as Hk.
  - intros [= <-].
    destruct (selected (req_headers req) "User-Agent") as [ua|] eqn:E; simpl.
    + now apply selected_Some in E.
    + apply default_user_agent_nonempty.
  - case_decide; [| discriminate]. intros Hs. now apply selected_Some in Hs.
Qed.

Lemma forward_header_name (req : request) (k v : string) :
  get_forward_headers req !! k = Some v -> k ∈ FORWARDED_HEADERS.
Proof.
  rewrite lookup_forward_headers. case_decide as Hk.
  - intros _. subst k. listed.
  - case_decide; [auto | discriminate].
Qed.

Lemma header_get_fold_case (hs : header_list) (n n' : string) :
  Py.lower n = Py.lower n' -> header_get hs n = header_get hs n'.
Proof.
  intros Hn. induction hs as [|[k v] hs IH]; simpl; [reflexivity |].
  now rewrite Hn, IH.
Qed.

(** C9. Whatever the incoming headers are, every name in the forwarded set
    is one of Content-Type, Accept, Authorization, User-Agent and
    X-Requested-With; Cookie, Host and Origin are never in it; it always has
    a non-empty User-Agent, which is the fixed default when the request
    supplies none; every other forwarded value is the incoming value of that
    name, and incoming names are matched up to case. *)
Theorem forward_headers_allow_list (req : request) :
  let fh := get_forward_headers req in
  (forall k : string, k ∈ dom fh -> k ∈ FORWARDED_HEADERS)
  /\ ("Cookie" ∉ dom fh) /\ ("Host" ∉ dom fh) /\ ("Origin" ∉ dom fh)
  /\ (exists ua, fh !! "User-Agent" = Some ua /\ ua <> "")
  /\ (header_get (req_headers req) "User-Agent" = None ->
      fh !! "User-Agent" = Some DEFAULT_USER_AGENT)
  /\ (forall k v : string,
         fh !! k = Some v ->
         header_get (req_headers req) k = Some v
         \/ (k = "User-Agent" /\ v = DEFAULT_USER_AGENT))
  /\ (forall n n' : string,
         Py.lower n = Py.lower n' ->
         header_get (req_headers req) n = header_get (req_headers req) n').
Proof.
  intros fh. subst fh.
  assert (Hdom : forall k : string,
             k ∈ dom (get_forward_headers req) -> k ∈ FORWARDED_HEADERS).
  { intros k [v Hv]%elem_of_dom. exact (forward_header_name req k v Hv). }
  repeat split.
  - exact Hdom.
  - intros H%Hdom. not_listed H.
  - intros H%Hdom. not_listed H.
  - intros H%Hdom. not_listed H.
  - rewrite lookup_forward_headers, decide_True by reflexivity.
    eexists. split; [reflexivity |].
    destruct (selected (req_headers req) "User-Agent") as [ua|] eqn:E; simpl.
    + now apply selected_Some in E.
    + apply default_user_agent_nonempty.
  - intros Hnone. rewrite lookup_forward_headers, decide_True by reflexivity.
    unfold selected. now rewrite Hnone.
  - intros k v. rewrite lookup_forward_headers. case_decide as Hk.
    + subst k. intros [= <-].
      destruct (selected (req_headers req) "User-Agent") as [ua|] eqn:E; simpl.
      * left. now apply selected_Some in E.
      * now right.
    + case_decide; [| discriminate].
      intros Hs. left. now apply selected_Some in Hs.
  - intros n n'. apply header_get_fold_case.
Qed.

Lemma forward_headers_allow_list_witness :
  get_forward_headers
    (Request "GET" "/proxy" (Some "https://x.test/y")
       [("Host", "relay.test"); ("Cookie", "sid=1");
        ("Origin", "http://localhost:3000"); ("accept", "text/plain")] "")
    !! "User-Agent" = Some DEFAULT_USER_AGENT.
Proof.
  apply forward_headers_allow_list. reflexivity.
Defined.

(** C10. An incoming header of the allow-list whose value is empty is not
    forwarded; an incoming User-Agent with an empty value is replaced by the
    default; hence no value of the forwarded set is empty. *)
Theorem forward_headers_drop_empty (req : request) :
  let fh := get_forward_headers req in
  (forall k : string,
      k ∈ FORWARDED_HEADERS -> k <> "User-Agent" ->
      header_get (req_headers req) k = Some "" -> fh !! k = None)
  /\ (header_get (req_headers req) "User-Agent" = Some "" ->
      fh !! "User-Agent" = Some DEFAULT_USER_AGENT)
  /\ (forall k v : string, fh !! k = Some v -> v <> "").
Proof.
  intros fh. subst fh. split; [| split].
  - intros k Hin Hk Hempty.
    rewrite lookup_forward_headers, decide_False, decide_True by assumption.
    unfold selected. now rewrite Hempty.
  - intros Hempty. rewrite lookup_forward_headers, decide_True by reflexivity.
    unfold selected. now rewrite Hempty.
  - apply forward_header_nonempty.
Qed.

Lemma forward_headers_drop_empty_witness :
  let req := Request "POST" "/proxy" (Some "https://x.test/y")
               [("User-Agent", ""); ("Accept", ""); ("Content-Type", "text/plain")]
               "payload" in
  get_forward_headers req !! "Accept" = None
  /\ get_forward_headers req !! "User-Agent" = Some DEFAULT_USER_AGENT
  /\ "text/plain" <> "".
Proof.
  intros req.
  destruct (forward_headers_drop_empty req) as [Hdrop [Hua Hne]].
  split; [| split].
  - apply Hdrop; [listed | discriminate | reflexivity].
  - apply Hua. reflexivity.
  - apply (Hne "Content-Type"). vm_compute. reflexivity.
Defined.

(** ** CORS header injection *)

Lemma after_request_allowed (req : request) (r : response) :
  is_origin_allowed (origin_of req) = true ->
  rsp_headers r = [] ->
  after_request req r =
  Response (rsp_body r) (rsp_status r) (rsp_content_type r)
           (cors_headers (origin_of req)).
Proof.
  intros Hok Hnil. unfold after_request. rewrite Hok.
  unfold with_header. simpl. rewrite Hnil. reflexivity.
Qed.

Lemma after_request_disallowed (req : request) (r : response) :
  is_origin_allowed (origin_of req) = false -> after_request req r = r.
Proof. intros Hno. unfold after_request. now rewrite Hno. Qed.

Lemma after_request_preserves (req : request) (r : response) :
  rsp_body (after_request req r) = rsp_body r
  /\ rsp_status (after_request req r) = rsp_status r
  /\ rsp_content_type (after_request req r) = rsp_content_type r.
Proof.
  unfold after_request. now destruct (is_origin_allowed (origin_of req)).
Qed.

Lemma header_get_set_same (hs : header_list) (n v : string) :
  header_get (header_set hs n v) n = Some v.
Proof.
  induction hs as [|[k w] hs IH]; simpl.
  - now rewrite String.eqb_refl.
  - destruct (String.eqb (Py.lower k) (Py.lower n)) eqn:E; simpl.
    + now rewrite String.eqb_refl.
    + now rewrite E.
Qed.

Lemma header_get_filter_other (hs : header_list) (n n' : string) :
  Py.lower n <> Py.lower n' ->
  header_get
    (filter (fun kv => String.eqb (Py.lower kv.1) (Py.lower n) = false) hs) n'
  = header_get hs n'.
Proof.
  intros Hne. induction hs as [|[k w] hs IH]; [reflexivity |].
  rewrite filter_cons. simpl.
  destruct (String.eqb (Py.lower k) (Py.lower n')) eqn:E'.
  - apply String.eqb_eq in E'.
    rewrite decide_True.
    + simpl. apply String.eqb_neq in Hne. rewrite E'.
      now rewrite String.eqb_refl.
    + apply String.eqb_neq. congruence.
  - case_decide; simpl; [now rewrite E' | exact IH].
Qed.

Lemma header_get_set_other (hs : header_list) (n v n' : string) :
  Py.lower n <> Py.lower n' ->
  header_get (header_set hs n v) n' = header_get hs n'.
Proof.
  intros Hne. induction hs as [|[k w] hs IH]; simpl.
  - apply String.eqb_neq in Hne. now rewrite Hne.
  - destruct (String.eqb (Py.lower k) (Py.lower n)) eqn:E; simpl.
    + apply String.eqb_eq in E.
      assert (E1 : String.eqb (Py.lower n) (Py.lower n') = false)
        by now apply String.eqb_neq.
      rewrite E1, E, E1. now apply header_get_filter_other.
    + now rewrite IH.
Qed.

(** ** The view, branch by branch *)

Section HandlerFacts.

Variable urlparse_scheme : string -> option string.
Variable urlopen : outbound -> outcome.

Lemma not_options (m : string) : m <> "OPTIONS" -> String.eqb m "OPTIONS" = false.
Proof. apply String.eqb_neq. Qed.

Lemma proxy_preflight (req : request) :
  req_method req = "OPTIONS" ->
  proxy urlparse_scheme req =
  Respond (empty_response (if is_origin_allowed (origin_of req) then 200 else 403)).
Proof.
  intros Hm. unfold proxy. rewrite Hm. simpl.
  now destruct (is_origin_allowed (origin_of req)).
Qed.

Lemma proxy_forbidden (req : request) :
  req_method req <> "OPTIONS" ->
  is_origin_allowed (origin_of req) = false ->
  proxy urlparse_scheme req = Respond FORBIDDEN.
Proof.
  intros Hm Hno. unfold proxy. now rewrite (not_options _ Hm), Hno.
Qed.

(** Past the gate, the view is decided by the resolved target. *)
Lemma proxy_allowed (req : request) :
  req_method req <> "OPTIONS" ->
  is_origin_allowed (origin_of req) = true ->
  proxy urlparse_scheme req =
  match get_target_url (req_path req) (req_args_url req) with
  | None | Some EmptyString => Respond MISSING_TARGET
  | Some target_url =>
      match urlparse_scheme target_url with
      | None => Respond BAD_FORMAT
      | Some scheme =>
          if Py.str_in scheme ["http"; "https"]
          then Urlopen (Outbound target_url
                          (if Py.str_in (req_method req) ["POST"; "PUT"; "PATCH"]
                           then Some (req_data req) else None)
                          (get_forward_headers req) (req_method req) 30)
          else Respond BAD_SCHEME
      end
  end.
Proof.
  intros Hm Hok. unfold proxy. rewrite (not_options _ Hm), Hok.
  destruct (get_target_url (req_path req) (req_args_url req)) as [[|c t]|];
    cbn -[Py.str_in get_forward_headers]; try reflexivity.
  destruct (urlparse_scheme (String c t)) as [scheme|]; [| reflexivity].
  now destruct (Py.str_in scheme ["http"; "https"]).
Qed.

Lemma relay_headers (o : outcome) : rsp_headers (relay o) = [].
Proof. now destruct o. Qed.

Lemma proxy_respond_headers (req : request) (r : response) :
  proxy urlparse_scheme req = Respond r -> rsp_headers r = [].
Proof.
  destruct (String.eqb (req_method req) "OPTIONS") eqn:Em.
  - apply String.eqb_eq in Em. rewrite (proxy_preflight req Em).
    now intros [= <-].
  - apply String.eqb_neq in Em.
    destruct (is_origin_allowed (origin_of req)) eqn:Eo.
    + rewrite (proxy_allowed req Em Eo).
      destruct (get_target_url (req_path req) (req_args_url req)) as [[|c t]|];
        try (now intros [= <-]).
      destruct (urlparse_scheme (String c t)) as [scheme|];
        [| now intros [= <-]].
      destruct (Py.str_in scheme ["http"; "https"]);
        [discriminate | now intros [= <-]].
    + rewrite (proxy_forbidden req Em Eo). now intros [= <-].
Qed.

(** Every response leaves the view without application-set headers. *)
Lemma handled_before_hook (req : request) :
  exists r, rsp_headers r = [] /\
            (handle urlparse_scheme urlopen req).1 = after_request req r.
Proof.
  unfold handle. destruct (proxy urlparse_scheme req) as [r|o] eqn:E.
  - exists r. split; [now apply proxy_respond_headers in E | reflexivity].
  - exists (relay (urlopen o)). split; [apply relay_headers | reflexivity].
Qed.

(** An outbound request is only ever issued for an allowed origin, a
    non-empty resolved target and a scheme of http or https. *)
Lemma proxy_urlopen_inv (req : request) (o : outbound) :
  proxy urlparse_scheme req = Urlopen o ->
  req_method req <> "OPTIONS"
  /\ is_origin_allowed (origin_of req) = true
  /\ get_target_url (req_path req) (req_args_url req) = Some (out_url o)
  /\ out_url o <> ""
  /\ (urlparse_scheme (out_url o) = Some "http"
      \/ urlparse_scheme (out_url o) = Some "https").
Proof.
  destruct (String.eqb (req_method req) "OPTIONS") eqn:Em.
  { apply String.eqb_eq in Em. now rewrite (proxy_preflight req Em). }
  apply String.eqb_neq in Em.
  destruct (is_origin_allowed (origin_of req)) eqn:Eo;
    [| now rewrite (proxy_forbidden req Em Eo)].
  rewrite (proxy_allowed req Em Eo).
  destruct (get_target_url (req_path req) (req_args_url req)) as [[|c t]|];
    try discriminate.
  destruct (urlparse_scheme (String c t)) as [scheme|] eqn:Ep; [| discriminate].
  destruct (Py.str_in scheme ["http"; "https"]) eqn:Es; [| discriminate].
  intros [= <-]. simpl. repeat split; auto; try discriminate.
  apply str_in_spec in Es. rewrite Ep.
  apply list_elem_of_In in Es. simpl in Es.
  destruct Es as [<- | [<- | []]]; auto.
Qed.

End HandlerFacts.

(** ** The pipeline *)

Section Pipeline.

Variable urlparse_scheme : string -> option string.
Variable urlopen : outbound -> outcome.

Local Abbreviation serve := (handle urlparse_scheme urlopen).

(** C5. A preflight request from an allowed origin is answered 200 with an
    empty body and the four CORS headers; from any other origin it is
    answered 403 with an empty body and no added header.  Either way the
    answer is fixed by the Origin header alone and no outbound request is
    issued. *)
Theorem preflight_response (req : request) :
  req_method req = "OPTIONS" ->
  (is_origin_allowed (origin_of req) = true ->
   serve req =
   (Response (Bytes "") 200 None (cors_headers (origin_of req)), []))
  /\ (is_origin_allowed (origin_of req) = false ->
      serve req = (Response (Bytes "") 403 None [], [])).
Proof.
  intros Hm. unfold handle. rewrite (proxy_preflight _ req Hm).
  split; intros Ho; rewrite Ho.
  - now rewrite after_request_allowed.
  - now rewrite after_request_disallowed.
Qed.

(** C4. A request other than a preflight whose Origin header is absent or
    not allowed is answered 403 with the JSON object
    {"error": "Forbidden", "message": "Origin not allowed"}, with no added
    header and without any outbound request; the answer depends neither on
    the path, nor on the query, nor on the URL parser. *)
Theorem forbidden_response (req : request) :
  req_method req <> "OPTIONS" ->
  header_get (req_headers req) "Origin" = None
  \/ is_origin_allowed (origin_of req) = false ->
  serve req =
  (Response (Json [("error", "Forbidden"); ("message", "Origin not allowed")])
            403 (Some "application/json") [],
   []).
Proof.
  intros Hm Ho.
  assert (Hno : is_origin_allowed (origin_of req) = false).
  { destruct Ho as [Ho | Ho]; [| exact Ho].
    now rewrite (origin_of_missing req Ho). }
  unfold handle. rewrite (proxy_forbidden _ req Hm Hno).
  now rewrite after_request_disallowed.
Qed.

(** C3. Past the origin gate, a request other than a preflight whose
    resolved target the URL parser rejects, or whose scheme is neither http
    nor https, is answered 400 and no outbound request is issued; when the
    target is a non-empty string the body is a JSON error naming the format,
    respectively the scheme. *)
Theorem invalid_target_response (req : request) (target_url : string) :
  req_method req <> "OPTIONS" ->
  is_origin_allowed (origin_of req) = true ->
  get_target_url (req_path req) (req_args_url req) = Some target_url ->
  urlparse_scheme target_url = None
  \/ (exists scheme, urlparse_scheme target_url = Some scheme
                     /\ scheme <> "http" /\ scheme <> "https") ->
  (serve req).2 = []
  /\ rsp_status (serve req).1 = 400
  /\ (target_url <> "" ->
      rsp_body (serve req).1 =
      Json [("error",
             match urlparse_scheme target_url with
             | None => "Invalid URL format"
             | Some _ => "URL must start with http:// or https://"
             end)]).
Proof.
  intros Hm Ho Ht Hbad. unfold handle.
  rewrite (proxy_allowed _ req Hm Ho), Ht.
  destruct target_url as [|c t].
  { repeat split; [apply after_request_preserves | now intros []]. }
  destruct Hbad as [Hp | [scheme [Hp [Hh Hs]]]]; rewrite Hp.
  - repeat split; intros; apply after_request_preserves.
  - assert (Hin : Py.str_in scheme ["http"; "https"] = false).
    { destruct (Py.str_in scheme ["http"; "https"]) eqn:E; [| reflexivity].
      apply str_in_spec, list_elem_of_In in E. simpl in E.
      intuition congruence. }
    rewrite Hin. repeat split; intros; apply after_request_preserves.
Qed.


(** C7, amended.  An exception raised in the forwarding block is mapped by
    its class: a URLError gives 502 with
    {"error": "Failed to connect", "message": reason}, and any other
    exception gives 500 with {"error": "Proxy error", "message": text}.
    Hence a failure while connecting or sending (DNS failure, connection
    refused, TLS failure, connect timeout) is answered 502, and a timeout or
    a dropped connection while the response is awaited or read is answered
    500.  One outbound request was attempted and none is retried. *)
Theorem forwarding_failure_mapped (req : request) (o : outbound) :
  proxy urlparse_scheme req = Urlopen o ->
  (forall reason : string,
      urlopen o = RaisedURLError reason ->
      rsp_status (serve req).1 = 502
      /\ rsp_body (serve req).1 =
         Json [("error", "Failed to connect"); ("message", reason)])
  /\ (forall msg : string,
         urlopen o = RaisedException msg ->
         rsp_status (serve req).1 = 500
         /\ rsp_body (serve req).1 =
            Json [("error", "Proxy error"); ("message", msg)])
  /\ (forall (f : transport_failure) (text : string),
         urlopen o = surfaced f text ->
         if while_connecting f
         then rsp_status (serve req).1 = 502
              /\ rsp_body (serve req).1 =
                 Json [("error", "Failed to connect"); ("message", text)]
         else rsp_status (serve req).1 = 500
              /\ rsp_body (serve req).1 =
                 Json [("error", "Proxy error"); ("message", text)])
  /\ (serve req).2 = [o].
Proof.
  intros Hp. unfold handle. rewrite Hp. cbn [fst snd].
  split; [| split; [| split; [| reflexivity]]].
  - intros reason ->. split; apply after_request_preserves.
  - intros msg ->. split; apply after_request_preserves.
  - intros f text ->. unfold surfaced.
    destruct (while_connecting f); split; apply after_request_preserves.
Qed.

(** C8. On every response of the pipeline, error responses included, the
    added headers are exactly the four CORS headers, with
    Access-Control-Allow-Origin echoing the request's Origin, when that
    origin is allowed, and there is no added header when it is not.  The
    hook does the same on any response handed to it: with an allowed
    origin the four names read back the four values and every other name
    reads as before; otherwise the response is returned unchanged.  Body,
    status and content type are never touched. *)
Theorem cors_headers_attached (req : request) :
  (is_origin_allowed (origin_of req) = true ->
   rsp_headers (serve req).1 =
   [ ("Access-Control-Allow-Origin", origin_of req);
     ("Access-Control-Allow-Methods", "GET, POST, PUT, DELETE, OPTIONS, PATCH");
     ("Access-Control-Allow-Headers",
      "Content-Type, Authorization, X-Requested-With, Accept, Origin");
     ("Access-Control-Max-Age", "86400") ])
  /\ (is_origin_allowed (origin_of req) = false ->
      rsp_headers (serve req).1 = [])
  /\ (forall r : response,
         is_origin_allowed (origin_of req) = true ->
         let hs := rsp_headers (after_request req r) in
         header_get hs "Access-Control-Allow-Origin" = Some (origin_of req)
         /\ header_get hs "Access-Control-Allow-Methods" = Some ALLOW_METHODS
         /\ header_get hs "Access-Control-Allow-Headers" = Some ALLOW_HEADERS
         /\ header_get hs "Access-Control-Max-Age" = Some MAX_AGE
         /\ (forall n : string,
                Py.lower n ∉ map Py.lower CORS_NAMES ->
                header_get hs n = header_get (rsp_headers r) n))
  /\ (forall r : response,
         is_origin_allowed (origin_of req) = false -> after_request req r = r)
  /\ (forall r : response,
         rsp_body (after_request req r) = rsp_body r
         /\ rsp_status (after_request req r) = rsp_status r
         /\ rsp_content_type (after_request req r) = rsp_content_type r).
Proof.
  destruct (handled_before_hook urlparse_scheme urlopen req) as [r0 [Hnil Hr0]].
  split; [| split; [| split; [| split]]].
  - intros Ho. rewrite Hr0, (after_request_allowed req r0 Ho Hnil). reflexivity.
  - intros Ho. now rewrite Hr0, (after_request_disallowed req r0 Ho).
  - intros r Ho hs. subst hs. unfold after_request. rewrite Ho.
    unfold with_header. cbn [rsp_headers].
    repeat split.
    + rewrite !header_get_set_other by (vm_compute; discriminate).
      apply header_get_set_same.
    + rewrite !header_get_set_other by (vm_compute; discriminate).
      apply header_get_set_same.
    + rewrite !header_get_set_other by (vm_compute; discriminate).
      apply header_get_set_same.
    + apply header_get_set_same.
    + intros n Hn.
      rewrite !header_get_set_other; [reflexivity | | | |];
        intros Heq; apply Hn; rewrite <- Heq; listed.
  - intros r. apply after_request_disallowed.
  - intros r. apply after_request_preserves.
Qed.

End Pipeline.

(** ** The theorems at concrete requests *)

Lemma preflight_response_witness :
  let req := Request "OPTIONS" "/proxy" (Some "https://x.test/y")
               [("Origin", "https://pltchuong.github.io")] "" in
  handle scheme_before_colon (fixed_network (RaisedURLError "unreachable")) req =
  (Response (Bytes "") 200 None (cors_headers "https://pltchuong.github.io"), []).
Proof.
  intros req.
  apply (preflight_response scheme_before_colon
           (fixed_network (RaisedURLError "unreachable")) req);
    reflexivity.
Defined.

Lemma forbidden_response_witness :
  let req := Request "POST" "/proxy" (Some "https://x.test/y")
               [("Origin", "https://evil.test"); ("Content-Type", "text/plain")]
               "payload" in
  handle scheme_before_colon (fixed_network (Returned 200 [] "ok")) req =
  (Response (Json [("error", "Forbidden"); ("message", "Origin not allowed")])
            403 (Some "application/json") [],
   []).
Proof.
  intros req.
  apply (forbidden_response scheme_before_colon
           (fixed_network (Returned 200 [] "ok")) req).
  - discriminate.
  - right. reflexivity.
Defined.

Lemma invalid_target_response_witness :
  let req := Request "GET" "/proxy/ftp://x.test/y" None
               [("Origin", "http://localhost:3000")] "" in
  let served := handle scheme_before_colon (fixed_network (Returned 200 [] "ok")) req in
  served.2 = []
  /\ rsp_status served.1 = 400
  /\ rsp_body served.1 = Json [("error", "URL must start with http:// or https://")].
Proof.
  intros req served.
  destruct (invalid_target_response scheme_before_colon
              (fixed_network (Returned 200 [] "ok")) req "ftp://x.test/y")
    as [Hcalls [Hstatus Hbody]].
  - discriminate.
  - reflexivity.
  - reflexivity.
  - right. exists "ftp". repeat split; discriminate.
  - split; [exact Hcalls | split; [exact Hstatus |]].
    apply Hbody. discriminate.
Defined.


Lemma forwarding_failure_mapped_witness :
  let req := Request "PUT" "/proxy/https://down.test/" None
               [("Origin", "http://127.0.0.1:8000")] "payload" in
  let net := fixed_network (surfaced ConnectionRefused "Connection refused") in
  rsp_status (handle scheme_before_colon net req).1 = 502
  /\ rsp_body (handle scheme_before_colon net req).1 =
     Json [("error", "Failed to connect"); ("message", "Connection refused")].
Proof.
  intros req net.
  destruct (forwarding_failure_mapped scheme_before_colon net req
              (Outbound "https://down.test/" (Some "payload")
                        (get_forward_headers req) "PUT" 30))
    as [_ [_ [Htransport _]]].
  - reflexivity.
  - apply (Htransport ConnectionRefused "Connection refused"). reflexivity.
Defined.

(** C7, as stated, fails: a timeout while the response is awaited reaches
    the handlers as an exception that is not a URLError, and is answered 500
    "Proxy error", not 502 "Failed to connect". *)
Lemma forwarding_read_timeout_counterexample :
  let req := Request "GET" "/proxy" (Some "http://slow.test/")
               [("Origin", "http://localhost:3000")] "" in
  let net := fixed_network (surfaced ReadTimeout "timed out") in
  proxy scheme_before_colon req =
  Urlopen (Outbound "http://slow.test/" None (get_forward_headers req) "GET" 30)
  /\ rsp_status (handle scheme_before_colon net req).1 = 500
  /\ rsp_status (handle scheme_before_colon net req).1 <> 502
  /\ rsp_body (handle scheme_before_colon net req).1 =
     Json [("error", "Proxy error"); ("message", "timed out")].
Proof.
  intros req net. repeat split. discriminate.
Qed.

Lemma cors_headers_attached_witness :
  rsp_headers
    (handle failing_parser (fixed_network (Returned 200 [] "ok"))
       (Request "GET" "/proxy" (Some "http://x.test/y")
                [("Origin", "http://localhost:3000")] "")).1 =
  [ ("Access-Control-Allow-Origin", "http://localhost:3000");
    ("Access-Control-Allow-Methods", "GET, POST, PUT, DELETE, OPTIONS, PATCH");
    ("Access-Control-Allow-Headers",
     "Content-Type, Authorization, X-Requested-With, Accept, Origin");
    ("Access-Control-Max-Age", "86400") ].
Proof.
  apply (cors_headers_attached failing_parser
           (fixed_network (Returned 200 [] "ok"))
           (Request "GET" "/proxy" (Some "http://x.test/y")
                    [("Origin", "http://localhost:3000")] "")).
  reflexivity.
Defined.

(** * Further properties of the code *)

(** ** Origin gate: look-alike origins *)

(** An allow-list entry followed by any character other than a slash or a
    colon is not an allowed origin: a host that merely begins like an
    allowed one (for instance "http://localhost.example.test") is refused. *)
Theorem lookalike_origin_rejected (e : string) (c : ascii) (rest : string) :
  e ∈ ALLOWED_ORIGINS ->
  c <> "/"%char -> c <> ":"%char ->
  is_origin_allowed (e +:+ String c rest) = false.
Proof.
  intros He Hslash Hcolon.
  destruct (is_origin_allowed (e +:+ String c rest)) eqn:E; [| reflexivity].
  exfalso. unfold is_origin_allowed in E.
  destruct (negb (Py.truthy (e +:+ String c rest))); [discriminate |].
  apply existsb_exists in E. destruct E as [e' [He' Hm]].
  apply origin_matches_spec in Hm.
  apply list_elem_of_In in He. unfold ALLOWED_ORIGINS in He, He'. simpl in He, He'.
  destruct He as [<- | [<- | [<- | []]]];
    destruct He' as [<- | [<- | [<- | []]]];
    destruct Hm as [Hm | [[r Hm] | [r Hm]]];
    inversion Hm; congruence.
Qed.

Lemma lookalike_origin_rejected_witness :
  is_origin_allowed "http://localhost.example.test" = false.
Proof.
  apply (lookalike_origin_rejected "http://localhost" "." "example.test").
  - listed.
  - discriminate.
  - discriminate.
Defined.

(** ** Target resolver: what a result says about the inputs *)

Lemma startswith_slice (s p : string) :
  Py.startswith s p = true -> s = p +:+ Py.slice_from (String.length p) s.
Proof.
  intros [r ->]%startswith_spec. now rewrite slice_from_app.
Qed.

(** A resolved target is either the non-empty query parameter, or, with the
    query parameter absent or empty, the path with its "/proxy/" prefix
    removed; there is no target exactly when the query parameter is absent
    or empty and the path lacks the prefix. *)
Theorem get_target_url_inv (path : string) (q : option string) :
  (forall t : string,
      get_target_url path q = Some t <->
      (q = Some t /\ t <> "")
      \/ ((q = None \/ q = Some "") /\ path = "/proxy/" +:+ t))
  /\ (get_target_url path q = None <->
      (q = None \/ q = Some "") /\ ~ starts_with path "/proxy/").
Proof.
  assert (Hfalsy : q = None \/ q = Some "" -> Py.truthy_opt q = false).
  { intros [-> | ->]; reflexivity. }
  destruct (Py.truthy_opt q) eqn:Eq.
  - assert (Hq : exists s, q = Some s /\ s <> "").
    { destruct q as [[|a s]|]; try discriminate. now exists (String a s). }
    destruct Hq as [s [-> Hs]].
    assert (Hget : get_target_url path (Some s) = Some s).
    { unfold get_target_url. now rewrite Eq. }
    rewrite Hget. split.
    + intros t. split.
      * intros [= <-]. now left.
      * intros [[[= <-] _] | [Hq _]]; [reflexivity |].
        apply Hfalsy in Hq. congruence.
    + split; [discriminate |]. intros [Hq _]. apply Hfalsy in Hq. congruence.
  - assert (Hq : q = None \/ q = Some "").
    { destruct q as [[|a s]|]; try discriminate; auto. }
    rewrite (get_target_url_falsy_query path q Eq).
    destruct (Py.startswith path "/proxy/") eqn:Ep.
    + pose proof (startswith_slice _ _ Ep) as Hpath. split.
      * intros t. split.
        -- intros [= <-]. right. split; [exact Hq | exact Hpath].
        -- intros [[-> Ht] | [_ Ht]].
           ++ destruct t; [now elim Ht | discriminate Eq].
           ++ f_equal. rewrite Ht. reflexivity.
      * split; [discriminate |]. intros [_ Hno]. exfalso. apply Hno.
        now apply startswith_spec.
    + assert (Hno : ~ starts_with path "/proxy/").
      { intros H%startswith_spec. congruence. }
      split.
      * intros t. split; [discriminate |].
        intros [[-> Ht] | [_ Ht]].
        -- destruct t; [now elim Ht | discriminate Eq].
        -- exfalso. apply Hno. now exists t.
      * split; [intros _; now split | reflexivity].
Qed.

Lemma get_target_url_inv_witness :
  (Some "" = Some "https://x.test/y" /\ "https://x.test/y" <> "")
  \/ ((Some "" = None \/ Some "" = Some "")
      /\ "/proxy/https://x.test/y" = "/proxy/" +:+ "https://x.test/y").
Proof.
  apply (proj1 (get_target_url_inv "/proxy/https://x.test/y" (Some ""))).
  reflexivity.
Defined.

(** ** Header selector: what is forwarded, and what it depends on *)

(** Each of the five allow-listed headers that the request carries with a
    non-empty value is forwarded with exactly that value. *)
Theorem forward_headers_complete (req : request) (k v : string) :
  k ∈ FORWARDED_HEADERS ->
  header_get (req_headers req) k = Some v ->
  v <> "" ->
  get_forward_headers req !! k = Some v.
Proof.
  intros Hk Hget Hv.
  assert (Hsel : selected (req_headers req) k = Some v)
    by (apply selected_Some; auto).
  rewrite lookup_forward_headers. case_decide as Hua.
  - subst k. now rewrite Hsel.
  - now rewrite decide_True.
Qed.

Lemma forward_headers_complete_witness :
  get_forward_headers
    (Request "POST" "/proxy" (Some "https://x.test/y")
       [("authorization", "Bearer t"); ("Cookie", "sid=1")] "payload")
    !! "Authorization" = Some "Bearer t".
Proof.
  apply forward_headers_complete; [listed | reflexivity | discriminate].
Defined.

(** The forwarded set is a function of the five allow-listed incoming
    headers alone: two requests that agree on them get the same forwarded
    set, whatever their method, path, query, body and other headers. *)
Theorem forward_headers_depend_on_allow_list (req1 req2 : request) :
  (forall k : string,
      k ∈ FORWARDED_HEADERS ->
      header_get (req_headers req1) k = header_get (req_headers req2) k) ->
  get_forward_headers req1 = get_forward_headers req2.
Proof.
  intros Hsame. apply map_eq. intros k.
  assert (Hsel : forall n : string,
             n ∈ FORWARDED_HEADERS ->
             selected (req_headers req1) n = selected (req_headers req2) n).
  { intros n Hn. unfold selected. now rewrite (Hsame n Hn). }
  rewrite !lookup_forward_headers. case_decide as Hua.
  - rewrite (Hsel "User-Agent") by listed. reflexivity.
  - case_decide as Hin; [now apply Hsel | reflexivity].
Qed.

Lemma forward_headers_depend_on_allow_list_witness :
  get_forward_headers
    (Request "GET" "/proxy" (Some "https://x.test/y")
       [("Cookie", "sid=1"); ("Accept", "text/plain"); ("Host", "relay.test")] "")
  = get_forward_headers
      (Request "DELETE" "/proxy/https://z.test/" None
         [("accept", "text/plain"); ("Origin", "http://localhost")] "ignored").
Proof.
  apply forward_headers_depend_on_allow_list.
  intros k Hk. apply list_elem_of_In in Hk. simpl in Hk.
  destruct Hk as [<- | [<- | [<- | [<- | [<- | []]]]]]; reflexivity.
Defined.

(** ** Health check *)

(** The health route is not gated: whatever the request, it answers 200
    with the fixed status object; the hook adds the four CORS headers when
    the origin is allowed and nothing otherwise. *)
Theorem health_check_response (req : request) :
  rsp_status (handle_index req) = 200
  /\ rsp_body (handle_index req) =
     Json [("status", "ok"); ("usage", "/proxy?url=<encoded_url>")]
  /\ rsp_headers (handle_index req) =
     (if is_origin_allowed (origin_of req) then cors_headers (origin_of req) else []).
Proof.
  unfold handle_index.
  destruct (after_request_preserves req index) as [Hb [Hs _]].
  split; [now rewrite Hs |]. split; [now rewrite Hb |].
  destruct (is_origin_allowed (origin_of req)) eqn:Eo.
  - now rewrite after_request_allowed.
  - now rewrite after_request_disallowed.
Qed.

(** ** The pipeline as a whole *)

Section PipelineCoverage.

Variable urlparse_scheme : string -> option string.
Variable urlopen : outbound -> outcome.

Local Abbreviation serve := (handle urlparse_scheme urlopen).

(** The outbound request, when there is one, is built from the request in
    one way only. *)
Lemma proxy_urlopen_shape (req : request) (o : outbound) :
  proxy urlparse_scheme req = Urlopen o ->
  o = Outbound (out_url o)
        (if Py.str_in (req_method req) ["POST"; "PUT"; "PATCH"]
         then Some (req_data req) else None)
        (get_forward_headers req) (req_method req) 30.
Proof.
  intros Hp.
  destruct (proxy_urlopen_inv urlparse_scheme req o Hp) as [Hm [Ho _]].
  rewrite (proxy_allowed urlparse_scheme req Hm Ho) in Hp.
  destruct (get_target_url (req_path req) (req_args_url req)) as [[|c t]|];
    try discriminate.
  destruct (urlparse_scheme (String c t)); [| discriminate].
  destruct (Py.str_in s ["http"; "https"]); [| discriminate].
  now injection Hp as <-.
Qed.

(** The ways the view can end. *)
Lemma proxy_cases (req : request) :
  (req_method req = "OPTIONS"
   /\ proxy urlparse_scheme req =
      Respond (empty_response (if is_origin_allowed (origin_of req) then 200 else 403)))
  \/ (req_method req <> "OPTIONS"
      /\ is_origin_allowed (origin_of req) = false
      /\ proxy urlparse_scheme req = Respond FORBIDDEN)
  \/ (req_method req <> "OPTIONS"
      /\ is_origin_allowed (origin_of req) = true
      /\ (proxy urlparse_scheme req = Respond MISSING_TARGET
          \/ proxy urlparse_scheme req = Respond BAD_FORMAT
          \/ proxy urlparse_scheme req = Respond BAD_SCHEME
          \/ exists o, proxy urlparse_scheme req = Urlopen o)).
Proof.
  destruct (String.eqb (req_method req) "OPTIONS") eqn:Em.
  - apply String.eqb_eq in Em. left. split; [exact Em |].
    now apply proxy_preflight.
  - apply String.eqb_neq in Em. right.
    destruct (is_origin_allowed (origin_of req)) eqn:Eo.
    + right. split; [exact Em |]. split; [reflexivity |].
      rewrite (proxy_allowed urlparse_scheme req Em Eo).
      destruct (get_target_url (req_path req) (req_args_url req)) as [[|c t]|];
        auto.
      destruct (urlparse_scheme (String c t)) as [scheme|]; auto.
      destruct (Py.str_in scheme ["http"; "https"]); eauto.
    + left. split; [exact Em |]. split; [reflexivity |].
      now apply proxy_forbidden.
Qed.

(** An outbound request is never issued for a preflight, for an origin that
    is not allowed, without a resolved non-empty target, or for a target
    whose scheme is not http or https; and the URL requested is the
    resolved target itself. *)
Theorem outbound_requires_valid_target (req : request) (o : outbound) :
  o ∈ (serve req).2 ->
  req_method req <> "OPTIONS"
  /\ is_origin_allowed (origin_of req) = true
  /\ get_target_url (req_path req) (req_args_url req) = Some (out_url o)
  /\ out_url o <> ""
  /\ (urlparse_scheme (out_url o) = Some "http"
      \/ urlparse_scheme (out_url o) = Some "https").
Proof.
  unfold handle.
  destruct (proxy urlparse_scheme req) as [r|o'] eqn:Ep; cbn [snd].
  - intros H. now apply elem_of_nil in H.
  - intros ->%list_elem_of_singleton.
    exact (proxy_urlopen_inv urlparse_scheme req o' Ep).
Qed.

(** A request other than a preflight, from an allowed origin, whose resolved
    target is non-empty with scheme http or https, is forwarded exactly
    once: to that target, with the request's own method, the selected
    headers, a timeout of 30, and the body for POST, PUT and PATCH only; the
    answer is the relayed outcome after the hook. *)
Theorem valid_request_forwarded (req : request) (target_url : string) :
  req_method req <> "OPTIONS" ->
  is_origin_allowed (origin_of req) = true ->
  get_target_url (req_path req) (req_args_url req) = Some target_url ->
  target_url <> "" ->
  urlparse_scheme target_url = Some "http"
  \/ urlparse_scheme target_url = Some "https" ->
  let o := Outbound target_url
             (if Py.str_in (req_method req) ["POST"; "PUT"; "PATCH"]
              then Some (req_data req) else None)
             (get_forward_headers req) (req_method req) 30 in
  serve req = (after_request req (relay (urlopen o)), [o]).
Proof.
  intros Hm Ho Ht Hne Hs o. subst o. unfold handle.
  rewrite (proxy_allowed urlparse_scheme req Hm Ho), Ht.
  destruct target_url as [|c t]; [now elim Hne |].
  now destruct Hs as [-> | ->].
Qed.

(** The incoming body is passed on exactly when the method is POST, PUT or
    PATCH, and then unchanged (an empty body included); for every other
    method the outbound request has no body, whatever the request carried. *)
Theorem body_forwarded_iff (req : request) (o : outbound) (b : string) :
  o ∈ (serve req).2 ->
  (out_data o = Some b <->
   req_method req ∈ ["POST"; "PUT"; "PATCH"] /\ b = req_data req).
Proof.
  unfold handle.
  destruct (proxy urlparse_scheme req) as [r|o'] eqn:Ep; cbn [snd].
  - intros H. now apply elem_of_nil in H.
  - intros ->%list_elem_of_singleton.
    rewrite (proxy_urlopen_shape req o' Ep). cbn [out_data].
    destruct (Py.str_in (req_method req) ["POST"; "PUT"; "PATCH"]) eqn:Es.
    + apply str_in_spec in Es. split.
      * intros [= <-]. now split.
      * intros [_ ->]. reflexivity.
    + split; [discriminate |]. intros [Hin _].
      apply str_in_spec in Hin. congruence.
Qed.

(** When the target answers normally, the response carries the upstream
    status code and body unchanged, with the upstream Content-Type, or
    application/octet-stream when the upstream sent none. *)
Theorem upstream_success_relayed (req : request) (o : outbound)
    (status : Z) (hdrs : header_list) (content : string) :
  proxy urlparse_scheme req = Urlopen o ->
  urlopen o = Returned status hdrs content ->
  rsp_status (serve req).1 = status
  /\ rsp_body (serve req).1 = Bytes content
  /\ rsp_content_type (serve req).1 =
     Some (default "application/octet-stream" (header_get hdrs "Content-Type"))
  /\ rsp_headers (serve req).1 = cors_headers (origin_of req)
  /\ (serve req).2 = [o].
Proof.
  intros Hp Hnet. unfold handle. rewrite Hp, Hnet. cbn [fst snd].
  destruct (proxy_urlopen_inv urlparse_scheme req o Hp) as [_ [Ho _]].
  rewrite (after_request_allowed req _ Ho (relay_headers _)).
  cbn. unfold header_get_default.
  now destruct (header_get hdrs "Content-Type").
Qed.

(** Past the origin gate, a request other than a preflight without a
    target (no target at all, or an empty one) is answered 400 with the
    "Missing target URL" object and its usage and example fields; the URL
    parser is not consulted and no outbound request is issued. *)
Theorem missing_target_response (req : request) :
  req_method req <> "OPTIONS" ->
  is_origin_allowed (origin_of req) = true ->
  get_target_url (req_path req) (req_args_url req) = None
  \/ get_target_url (req_path req) (req_args_url req) = Some "" ->
  serve req =
  (Response
     (Json [("error", "Missing target URL");
            ("usage", "/proxy?url=<encoded_url> or /proxy/<url>");
            ("example", "/proxy?url=https://api.example.com/data")])
     400 (Some "application/json") (cors_headers (origin_of req)),
   []).
Proof.
  intros Hm Ho Ht. unfold handle.
  rewrite (proxy_allowed urlparse_scheme req Hm Ho).
  destruct Ht as [-> | ->]; now rewrite after_request_allowed.
Qed.

(** Whatever the method, a request whose origin is not allowed is answered
    403, without any CORS header and without any outbound request. *)
Theorem disallowed_origin_always_403 (req : request) :
  is_origin_allowed (origin_of req) = false ->
  rsp_status (serve req).1 = 403
  /\ rsp_headers (serve req).1 = []
  /\ (serve req).2 = [].
Proof.
  intros Ho. unfold handle.
  destruct (proxy_cases req) as [[_ Hp] | [[_ [_ Hp]] | [_ [Hyes _]]]];
    [| | congruence]; rewrite Hp; cbn [fst snd];
    rewrite after_request_disallowed by exact Ho.
  - now rewrite Ho.
  - now split.
Qed.

(** A response produced without contacting the target has status 200, 400
    or 403, and 200 only for a preflight from an allowed origin. *)
Theorem local_status_codes (req : request) :
  (serve req).2 = [] ->
  (rsp_status (serve req).1 = 200
   \/ rsp_status (serve req).1 = 400
   \/ rsp_status (serve req).1 = 403)
  /\ (rsp_status (serve req).1 = 200 <->
      req_method req = "OPTIONS" /\ is_origin_allowed (origin_of req) = true).
Proof.
  unfold handle.
  destruct (proxy_cases req)
    as [[Hm Hp] | [[Hm [Ho Hp]] | [Hm [Ho [Hp | [Hp | [Hp | [o Hp]]]]]]]];
    rewrite Hp; cbn [fst snd]; try discriminate; intros _;
    rewrite (proj1 (proj2 (after_request_preserves req _))); cbn.
  - destruct (is_origin_allowed (origin_of req)); cbn.
    + split; [auto |]. split; [intros _; now split | reflexivity].
    + split; [auto |]. split; [discriminate | intros [_ H]; discriminate].
  - split; [auto |]. split; [discriminate | intros [H _]; congruence].
  - split; [auto |]. split; [discriminate | intros [H _]; congruence].
  - split; [auto |]. split; [discriminate | intros [H _]; congruence].
  - split; [auto |]. split; [discriminate | intros [H _]; congruence].
Qed.

(** Whenever the proxy route answers a request other than a preflight
    without relaying a reply of the target (it refused the request itself,
    or forwarding failed), the answer is an error object built by
    [jsonify]: its first field is "error", its content type is
    application/json and its status is 400, 403, 500 or 502. *)
Theorem synthesized_response_is_error (req : request) :
  req_method req <> "OPTIONS" ->
  (forall o : outbound, o ∈ (serve req).2 -> upstream_replied (urlopen o) = false) ->
  (exists msg rest, rsp_body (serve req).1 = Json (("error", msg) :: rest))
  /\ rsp_content_type (serve req).1 = Some "application/json"
  /\ rsp_status (serve req).1 ∈ [400; 403; 500; 502].
Proof.
  intros Hmethod. unfold handle.
  destruct (proxy_cases req)
    as [[Hm Hp] | [[Hm [Ho Hp]] | [Hm [Ho [Hp | [Hp | [Hp | [o Hp]]]]]]]];
    [contradiction | | | | |]; rewrite Hp; cbn [fst snd]; intros Hfail;
    rewrite (proj1 (after_request_preserves req _)),
            (proj1 (proj2 (after_request_preserves req _))),
            (proj2 (proj2 (after_request_preserves req _)));
    try (specialize (Hfail o (list_elem_of_here o []));
         destruct (urlopen o); try discriminate Hfail);
    cbn; (split; [eauto | split; [reflexivity | listed]]).
Qed.

End PipelineCoverage.

(** ** The further properties at concrete requests *)

Lemma outbound_requires_valid_target_witness :
  let req := Request "POST" "/proxy/https://x.test/y" None
               [("Origin", "https://pltchuong.github.io/app")] "payload" in
  let o := Outbound "https://x.test/y" (Some "payload")
             (get_forward_headers req) "POST" 30 in
  req_method req <> "OPTIONS"
  /\ is_origin_allowed (origin_of req) = true
  /\ get_target_url (req_path req) (req_args_url req) = Some (out_url o)
  /\ out_url o <> ""
  /\ (scheme_before_colon (out_url o) = Some "http"
      \/ scheme_before_colon (out_url o) = Some "https").
Proof.
  intros req o.
  apply (outbound_requires_valid_target scheme_before_colon
           (fixed_network (Returned 200 [] "ok")) req o).
  assert (Hcalls : (handle scheme_before_colon
                      (fixed_network (Returned 200 [] "ok")) req).2 = [o])
    by reflexivity.
  rewrite Hcalls. left.
Defined.

Lemma valid_request_forwarded_witness :
  let req := Request "PATCH" "/proxy" (Some "http://x.test/y")
               [("Origin", "http://localhost:3000"); ("Accept", "text/plain")]
               "payload" in
  let net := fixed_network (Returned 200 [("Content-Type", "text/plain")] "hello") in
  handle scheme_before_colon net req =
  (Response (Bytes "hello") 200 (Some "text/plain")
            (cors_headers "http://localhost:3000"),
   [Outbound "http://x.test/y" (Some "payload") (get_forward_headers req) "PATCH" 30]).
Proof.
  intros req net.
  etransitivity.
  - apply (valid_request_forwarded scheme_before_colon net req "http://x.test/y").
    + discriminate.
    + reflexivity.
    + reflexivity.
    + discriminate.
    + left. reflexivity.
  - reflexivity.
Defined.

Lemma body_forwarded_iff_witness :
  let req := Request "DELETE" "/proxy" (Some "http://x.test/y")
               [("Origin", "http://localhost:3000")] "ignored" in
  let o := Outbound "http://x.test/y" None (get_forward_headers req) "DELETE" 30 in
  out_data o <> Some "ignored".
Proof.
  intros req o Hdata.
  assert (Hin : o ∈ (handle scheme_before_colon
                       (fixed_network (Returned 200 [] "ok")) req).2).
  { assert (Hcalls : (handle scheme_before_colon
                        (fixed_network (Returned 200 [] "ok")) req).2 = [o])
      by reflexivity.
    rewrite Hcalls. left. }
  apply (body_forwarded_iff scheme_before_colon
           (fixed_network (Returned 200 [] "ok")) req o "ignored" Hin) in Hdata.
  destruct Hdata as [Hm _]. not_listed Hm.
Defined.

Lemma upstream_success_relayed_witness :
  let req := Request "GET" "/proxy/https://x.test/y" None
               [("origin", "http://127.0.0.1:5173")] "" in
  let net := fixed_network (Returned 204 [] "") in
  let served := handle scheme_before_colon net req in
  rsp_status served.1 = 204
  /\ rsp_body served.1 = Bytes ""
  /\ rsp_content_type served.1 = Some "application/octet-stream"
  /\ rsp_headers served.1 = cors_headers "http://127.0.0.1:5173"
  /\ served.2 = [Outbound "https://x.test/y" None (get_forward_headers req) "GET" 30].
Proof.
  intros req net served.
  apply (upstream_success_relayed scheme_before_colon net req
           (Outbound "https://x.test/y" None (get_forward_headers req) "GET" 30)
           204 [] "");
    reflexivity.
Defined.

Lemma missing_target_response_witness :
  let req := Request "GET" "/proxy" (Some "")
               [("Origin", "http://localhost:3000")] "" in
  handle failing_parser (fixed_network (Returned 200 [] "ok")) req =
  (Response
     (Json [("error", "Missing target URL");
            ("usage", "/proxy?url=<encoded_url> or /proxy/<url>");
            ("example", "/proxy?url=https://api.example.com/data")])
     400 (Some "application/json") (cors_headers "http://localhost:3000"),
   []).
Proof.
  intros req.
  apply (missing_target_response failing_parser
           (fixed_network (Returned 200 [] "ok")) req).
  - discriminate.
  - reflexivity.
  - left. reflexivity.
Defined.

Lemma disallowed_origin_always_403_witness :
  let req := Request "DELETE" "/proxy/https://x.test/y" None
               [("Origin", "https://localhost")] "" in
  let served := handle scheme_before_colon (fixed_network (Returned 200 [] "ok")) req in
  rsp_status served.1 = 403 /\ rsp_headers served.1 = [] /\ served.2 = [].
Proof.
  intros req served.
  apply (disallowed_origin_always_403 scheme_before_colon
           (fixed_network (Returned 200 [] "ok")) req).
  reflexivity.
Defined.

Lemma local_status_codes_witness :
  let req := Request "GET" "/proxy/file:///etc/hosts" None
               [("Origin", "http://localhost")] "" in
  let served := handle scheme_before_colon (fixed_network (Returned 200 [] "ok")) req in
  rsp_status served.1 = 200 \/ rsp_status served.1 = 400 \/ rsp_status served.1 = 403.
Proof.
  intros req served.
  apply (local_status_codes scheme_before_colon
           (fixed_network (Returned 200 [] "ok")) req).
  reflexivity.
Defined.

Lemma synthesized_response_is_error_witness :
  let req := Request "GET" "/proxy" (Some "https://down.test/")
               [("Origin", "http://localhost")] "" in
  let served := handle scheme_before_colon
                  (fixed_network (surfaced ConnectionDropped "reset by peer")) req in
  (exists msg rest, rsp_body served.1 = Json (("error", msg) :: rest))
  /\ rsp_content_type served.1 = Some "application/json"
  /\ rsp_status served.1 ∈ [400; 403; 500; 502].
Proof.
  intros req served.
  apply (synthesized_response_is_error scheme_before_colon
           (fixed_network (surfaced ConnectionDropped "reset by peer")) req).
  - discriminate.
  - intros o _. reflexivity.
Defined.
